(** * truck2terminal_bot: lifecycle and middleware registration of [bot.py]

    A shallow embedding of [bot.py]: the functions [on_startup],
    [delete_webhook], [on_shutdown], [register_global_middlewares],
    [setup_logging], [get_storage], [main] and the [__main__] guard.

    Calls to the frameworks the module drives (aiogram's [Bot] and
    [Dispatcher], [logging], the API client) are effects.  They are modelled
    in a state-and-exception monad over a [World] that holds the trace of
    calls made so far, the store of middleware objects, and the messaging
    platform's side (webhook registration and queue of pending updates).
    What each fallible call does in a given run is fixed by an environment
    [Env]; every theorem quantifies over it. *)

From Stdlib Require Import String ZArith Bool Arith Lia List.
Import ListNotations.
Open Scope string_scope.
Open Scope list_scope.

(** ** Python values, exceptions and results *)

(** The exceptions the module distinguishes: the two caught by the
    [__main__] guard, and every other one, identified by its class name. *)
Inductive exn : Type :=
| KeyboardInterrupt
| SystemExit (code : Z)
| Error (name : string).

Inductive result (A : Type) : Type :=
| Normal (a : A)
| Raised (e : exn).
Arguments Normal {A} a.
Arguments Raised {A} e.

(** Modelled from the spec: the class [MyApi] of
    [infrastructure.some_api.api] is not part of the sources.  The spec
    describes the client as an object that "owns a connection/session",
    "exposes request methods and a single close/teardown operation"; it
    declares no [__bool__] and no [__len__], so an instance has Python's
    default truth value, [True]. *)
Inductive MyApi : Type := MyApi_instance.

(** The Python values that can be passed as [api_client]. *)
Inductive value : Type :=
| VNone
| VBool (b : bool)
| VInt (z : Z)
| VStr (s : string)
| VApi (c : MyApi).

(** Python's truth-value test, as used by [if api_client:]. *)
Definition truthy (v : value) : bool :=
  match v with
  | VNone => false
  | VBool b => b
  | VInt z => negb (Z.eqb z 0)
  | VStr s => negb (String.eqb s "")
  | VApi _ => true
  end.

(** ** Configuration *)

(** Modelled from the spec: [tgbot.config] is not part of the sources.  The
    record holds the attributes [bot.py] reads: "bot credential token, list
    of administrator identities, storage-backend selector, storage
    connection parameters".  [dsn] stands for the result of
    [config.redis.dsn()]. *)
Record TgBot : Type := {
  token : string;
  admin_ids : list Z;
  use_redis : bool
}.

Record RedisConfig : Type := { dsn : string }.

Record Config : Type := {
  tg_bot : TgBot;
  redis : RedisConfig
}.

(** ** Storage *)

(** aiogram's [DefaultKeyBuilder], with the two flags [bot.py] sets. *)
Record DefaultKeyBuilder : Type := {
  with_bot_id : bool;
  with_destiny : bool
}.

Inductive Storage : Type :=
| RedisStorage (url : string) (key_builder : DefaultKeyBuilder)
| MemoryStorage.


(** ** Middleware objects and the dispatcher *)

Inductive Middleware : Type :=
| ConfigMiddleware (config : Config)
| ApiMiddleware (api_client : value)
| LanguageMiddleware.

(** A reference to a middleware object: its index in the object store.
    Two equal references denote the same object. *)
Definition ref : Type := nat.

(** An event observer of aiogram ([dp.message], [dp.callback_query]) with
    its two middleware managers; each is the list its [register] appends
    to. *)
Record Observer : Type := {
  middleware : list ref;
  outer_middleware : list ref
}.

Record Dispatcher : Type := {
  storage : Storage;
  routers : list string;
  message : Observer;
  callback_query : Observer
}.

Definition Observer_init : Observer :=
  {| middleware := []; outer_middleware := [] |}.

Definition Dispatcher_init (st : Storage) : Dispatcher :=
  {| storage := st; routers := [];
     message := Observer_init; callback_query := Observer_init |}.

Record Bot : Type := { bot_token : string }.

Record Update : Type := { update_id : Z }.

(** ** Events and the world *)

Inductive level : Type := INFO | ERROR.

Inductive Pipeline : Type := Message | CallbackQuery.

Inductive event : Type :=
| EvLog (l : level) (msg : string)
| EvLoadConfig (path : string)
| EvApiInit
| EvBotInit (tok : string)
| EvOuterMiddleware (p : Pipeline) (m : ref)
| EvDeleteWebhook (drop_pending_updates : bool)
| EvBroadcast (users : list Z) (text : string)
| EvSendMessage (chat_id : Z) (text : string)
| EvStartPolling (dp : Dispatcher)
| EvUpdate (u : Update)
| EvBotClose
| EvApiClose
| EvTraceback (e : exn).

Record World : Type := {
  trace : list event;
  objects : list Middleware;
  webhook : option string;
  pending : list Update
}.

Definition log_event (e : event) (w : World) : World :=
  {| trace := trace w ++ [e]; objects := objects w;
     webhook := webhook w; pending := pending w |}.

Definition log_events (es : list event) (w : World) : World :=
  {| trace := trace w ++ es; objects := objects w;
     webhook := webhook w; pending := pending w |}.

(** ** The monad: state passing with exceptions *)

Definition M (A : Type) : Type := World -> result A * World.

Definition ret {A : Type} (a : A) : M A := fun w => (Normal a, w).

Definition bind {A B : Type} (c : M A) (k : A -> M B) : M B :=
  fun w =>
    match c w with
    | (Normal a, w1) => k a w1
    | (Raised e, w1) => (Raised e, w1)
    end.

Definition raise {A : Type} (e : exn) : M A := fun w => (Raised e, w).

Definition emit (e : event) : M unit := fun w => (Normal tt, log_event e w).

(** The outcome of a fallible external call. *)
Definition outcome (o : option exn) : M unit :=
  match o with
  | None => ret tt
  | Some e => raise e
  end.

Declare Scope m_scope.
Delimit Scope m_scope with m.
Notation "x <- c ;; k" := (bind c (fun x => k))
  (at level 61, c at next level, right associativity) : m_scope.
Notation "c ;; k" := (bind c (fun _ => k))
  (at level 61, right associativity) : m_scope.
Open Scope m_scope.

(** [for x in xs: body(x)], threading the value the body mutates. *)
Fixpoint for_each {A S : Type} (xs : list A) (body : A -> S -> M S) (s : S)
  : M S :=
  match xs with
  | [] => ret s
  | x :: xs' => s' <- body x s ;; for_each xs' body s'
  end.

(** ** Logging *)

Definition logging_info (msg : string) : M unit := emit (EvLog INFO msg).
Definition logging_error (msg : string) : M unit := emit (EvLog ERROR msg).

(** [setup_logging]: configures the handlers and logs "Starting bot". *)
Definition setup_logging : M unit := logging_info "Starting bot".

(** ** The environment of a run *)

(** What the collaborators of [bot.py] do in one run of the process: the
    value or exception of each fallible call ([env_from_url] tells, for a
    connection URL, the exception with which [RedisStorage.from_url] refuses
    it, if it does), the handler groups exported by [tgbot.handlers], and
    the platform's state when the process starts (a webhook possibly
    registered, updates queued while the bot was offline) and during
    polling (the updates that arrive). *)
Record Env : Type := {
  env_load_config : result Config;
  env_from_url : string -> option exn;
  routers_list : list string;
  env_api_init : option exn;
  env_bot_init : option exn;
  env_delete_webhook : option exn;
  env_send : Z -> bool;
  env_arrivals : list Update;
  env_polling : option exn;
  env_bot_close : option exn;
  env_api_close : option exn;
  env_webhook : option string;
  env_backlog : list Update
}.

Definition init_world (env : Env) : World :=
  {| trace := []; objects := [];
     webhook := env_webhook env; pending := env_backlog env |}.

Section Program.

Variable env : Env.

(** *** Collaborators *)

Definition load_config (path : string) : M Config :=
  emit (EvLoadConfig path) ;;
  match env_load_config env with
  | Normal c => ret c
  | Raised e => raise e
  end.

(** [RedisStorage.from_url(url, key_builder=...)]: the URL is parsed when
    the store is built, and a URL that cannot be parsed is refused with an
    exception ([ValueError]). *)
Definition RedisStorage_from_url (url : string)
  (key_builder : DefaultKeyBuilder) : M Storage :=
  outcome (env_from_url env url) ;; ret (RedisStorage url key_builder).

(** [dp.include_routers] with the routers as arguments: refuses an empty argument list with
    [ValueError], and otherwise attaches the routers in order. *)
Definition include_routers (dp : Dispatcher) (rs : list string)
  : M Dispatcher :=
  match rs with
  | [] => raise (Error "ValueError")
  | _ :: _ =>
      ret {| storage := storage dp; routers := routers dp ++ rs;
             message := message dp; callback_query := callback_query dp |}
  end.

(** [MyApi()] and [api_client.close()]. *)
Definition MyApi_init : M MyApi :=
  emit EvApiInit ;; outcome (env_api_init env) ;; ret MyApi_instance.

Definition MyApi_close (c : MyApi) : M unit :=
  emit EvApiClose ;; outcome (env_api_close env).

(** Attribute lookup of [close] on an arbitrary value, then the call. *)
Definition call_close (v : value) : M unit :=
  match v with
  | VApi c => MyApi_close c
  | _ => raise (Error "AttributeError")
  end.

(** [Bot(token=...)], [bot.delete_webhook(...)] and the session close of
    [Bot.__aexit__].  A successful [delete_webhook] removes the webhook
    registration and, when [drop_pending_updates] is set, empties the queue
    of pending updates.  A call that raises is taken to have failed before
    the platform acted on it. *)
Definition Bot_init (tok : string) : M Bot :=
  emit (EvBotInit tok) ;; outcome (env_bot_init env) ;;
  ret {| bot_token := tok |}.

Definition clear_webhook (drop_pending_updates : bool) : M unit :=
  fun w =>
    (Normal tt,
     {| trace := trace w; objects := objects w; webhook := None;
        pending := if drop_pending_updates then [] else pending w |}).

Definition Bot_delete_webhook (bot : Bot) (drop_pending_updates : bool)
  : M unit :=
  emit (EvDeleteWebhook drop_pending_updates) ;;
  outcome (env_delete_webhook env) ;;
  clear_webhook drop_pending_updates.

Definition Bot_aexit (bot : Bot) : M unit :=
  emit EvBotClose ;; outcome (env_bot_close env).

(** [async with enter as x: body], for a context manager whose [__aexit__]
    does not suppress exceptions: the exit runs on both paths, and an
    exception of the body is re-raised after it. *)
Definition async_with {A : Type} (enter : M A) (aexit : A -> M unit)
  (body : A -> M unit) : M unit :=
  fun w =>
    match enter w with
    | (Raised e, w1) => (Raised e, w1)
    | (Normal a, w1) =>
        match body a w1 with
        | (Normal _, w2) => aexit a w2
        | (Raised e, w2) =>
            match aexit a w2 with
            | (Normal _, w3) => (Raised e, w3)
            | (Raised e', w3) => (Raised e', w3)
            end
        end
    end.

(** The two middleware managers [bot.py] calls; [register] appends. *)
Definition add_outer (o : Observer) (m : ref) : Observer :=
  {| middleware := middleware o;
     outer_middleware := outer_middleware o ++ [m] |}.

Definition message_outer_middleware (m : ref) (dp : Dispatcher)
  : M Dispatcher :=
  emit (EvOuterMiddleware Message m) ;;
  ret {| storage := storage dp; routers := routers dp;
         message := add_outer (message dp) m;
         callback_query := callback_query dp |}.

Definition callback_query_outer_middleware (m : ref) (dp : Dispatcher)
  : M Dispatcher :=
  emit (EvOuterMiddleware CallbackQuery m) ;;
  ret {| storage := storage dp; routers := routers dp;
         message := message dp;
         callback_query := add_outer (callback_query dp) m |}.

(** Construction of a middleware object: a fresh cell of the store. *)
Definition new_object (m : Middleware) : M ref :=
  fun w =>
    (Normal (length (objects w)),
     {| trace := trace w; objects := objects w ++ [m];
        webhook := webhook w; pending := pending w |}).

(** [dp.start_polling(bot)]: the dispatcher receives what the platform has
    queued for the bot and then what arrives, until polling stops; on the
    way out it closes the session of the bot ([close_bot_session] is [True]
    by default), and then returns (after a stop signal) or lets the
    exception that ended polling through. *)
Definition fetch_updates : M (list Update) :=
  fun w =>
    (Normal (pending w ++ env_arrivals env),
     {| trace := trace w; objects := objects w;
        webhook := webhook w; pending := [] |}).

Definition start_polling (dp : Dispatcher) (bot : Bot) : M unit :=
  emit (EvStartPolling dp) ;;
  us <- fetch_updates ;;
  for_each us (fun u _ => emit (EvUpdate u)) tt ;;
  emit EvBotClose ;;
  outcome (env_polling env).

(** Modelled from the spec: [tgbot.services.broadcaster] is not part of the
    sources.  The spec has the startup step broadcast "a startup
    notification to every administrator identity (best-effort: a failed
    send to one administrator must not abort startup or prevent notifying
    the others)"; a failure is "isolated and logged, not propagated"
    ([AdminNotifyFailure]: "non-fatal, isolated per recipient, logged
    only"). *)
Fixpoint broadcast_each (bot : Bot) (users : list Z) (text : string)
  : M unit :=
  match users with
  | [] => ret tt
  | user_id :: rest =>
      emit (EvSendMessage user_id text) ;;
      (if env_send env user_id then ret tt
       else logging_error "AdminNotifyFailure") ;;
      broadcast_each bot rest text
  end.

Definition broadcast (bot : Bot) (users : list Z) (text : string) : M unit :=
  emit (EvBroadcast users text) ;; broadcast_each bot users text.

(** *** The functions of [bot.py] *)

Definition startup_text : string := "Бот запустился!".
Definition interrupted_text : string := "Бот був вимкнений!".

Definition on_startup (bot : Bot) (admins : list Z) : M unit :=
  broadcast bot admins startup_text.

Definition delete_webhook (bot : Bot) : M unit :=
  Bot_delete_webhook bot true ;;
  logging_info "Webhook deleted before polling.".

Definition on_shutdown (api_client : value) : M unit :=
  if truthy api_client then
    call_close api_client ;;
    logging_info "API client closed successfully"
  else ret tt.

(** [api_client] and [session_pool] default to [None]. *)
Definition register_global_middlewares (dp : Dispatcher) (config : Config)
  (api_client : value) (session_pool : value) : M Dispatcher :=
  m0 <- new_object (ConfigMiddleware config) ;;
  let middleware_types := [m0] in
  middleware_types <-
    (if truthy api_client then
       m1 <- new_object (ApiMiddleware api_client) ;;
       let middleware_types := middleware_types ++ [m1] in
       m2 <- new_object LanguageMiddleware ;;
       ret (middleware_types ++ [m2])
     else ret middleware_types) ;;
  for_each middleware_types
    (fun middleware_type dp =>
       dp <- message_outer_middleware middleware_type dp ;;
       callback_query_outer_middleware middleware_type dp)
    dp.

Definition get_storage (config : Config) : M Storage :=
  if use_redis (tg_bot config) then
    RedisStorage_from_url
      (dsn (redis config))
      {| with_bot_id := true; with_destiny := true |}
  else
    ret MemoryStorage.

Definition main : M unit :=
  setup_logging ;;
  config <- load_config ".env" ;;
  storage <- get_storage config ;;
  api_client <- MyApi_init ;;
  async_with (Bot_init (token (tg_bot config))) Bot_aexit
    (fun bot =>
       let dp := Dispatcher_init storage in
       dp <- include_routers dp (routers_list env) ;;
       dp <- register_global_middlewares dp config (VApi api_client) VNone ;;
       delete_webhook bot ;;
       on_startup bot (admin_ids (tg_bot config)) ;;
       start_polling dp bot) ;;
  on_shutdown (VApi api_client).

(** The [if __name__ == "__main__":] block, from the initial world to the
    exit status of the interpreter: 0 when the block completes, 1 after an
    exception nobody caught (whose traceback the interpreter prints). *)
Definition script : Z * World :=
  match main (init_world env) with
  | (Normal _, w) => (0%Z, w)
  | (Raised KeyboardInterrupt, w)
  | (Raised (SystemExit _), w) =>
      (0%Z, snd (logging_error interrupted_text w))
  | (Raised (Error name), w) =>
      (1%Z, log_event (EvTraceback (Error name)) w)
  end.

End Program.

(** ** Observations on dispatchers, stores and traces *)

(** The object a reference denotes in a world. *)
Definition resolve (w : World) (r : ref) : option Middleware :=
  nth_error (objects w) r.

(** The outer middleware an observer gained between two of its states. *)
Definition registered_on (before after : Observer) : list ref :=
  skipn (length (outer_middleware before)) (outer_middleware after).

(** The reference composition of the chain, as the spec words it. *)
Definition reference_chain (config : Config) (api_client : value)
  : list Middleware :=
  if truthy api_client then
    [ConfigMiddleware config; ApiMiddleware api_client; LanguageMiddleware]
  else
    [ConfigMiddleware config].

(** The calls a registration of [refs] makes, in order. *)
Definition registration_events (refs : list ref) : list event :=
  flat_map (fun r => [EvOuterMiddleware Message r;
                      EvOuterMiddleware CallbackQuery r]) refs.

(** The calls one pass of the broadcaster makes: a send per recipient, and
    an error record after each send that failed. *)
Definition send_events (env : Env) (text : string) (users : list Z)
  : list event :=
  flat_map
    (fun user_id =>
       EvSendMessage user_id text ::
       (if env_send env user_id then []
        else [EvLog ERROR "AdminNotifyFailure"]))
    users.

(** *** Projections of a trace *)

(** The steps of the startup sequence: the webhook clear, the
    administrator broadcast with its sends, the start of polling. *)
Definition is_lifecycle (e : event) : bool :=
  match e with
  | EvDeleteWebhook _ | EvBroadcast _ _ | EvSendMessage _ _
  | EvStartPolling _ => true
  | _ => false
  end.

Definition lifecycle (t : list event) : list event := filter is_lifecycle t.

(** The recipients of the sends attempted, in order. *)
Definition send_attempts (t : list event) : list Z :=
  flat_map (fun e => match e with
                     | EvSendMessage chat_id _ => [chat_id]
                     | _ => []
                     end) t.

(** The updates handed to the dispatcher, in order. *)
Definition delivered (t : list event) : list Update :=
  flat_map (fun e => match e with
                     | EvUpdate u => [u]
                     | _ => []
                     end) t.

(** The number of calls of the client's [close()]. *)
Definition close_calls (t : list event) : nat :=
  length (filter (fun e => match e with EvApiClose => true | _ => false end) t).

Definition polling_entered (t : list event) : bool :=
  existsb (fun e => match e with EvStartPolling _ => true | _ => false end) t.

(** The references registered as outer middleware on a pipeline. *)
Definition registered_refs (p : Pipeline) (t : list event) : list ref :=
  flat_map (fun e => match e, p with
                     | EvOuterMiddleware Message m, Message => [m]
                     | EvOuterMiddleware CallbackQuery m, CallbackQuery => [m]
                     | _, _ => []
                     end) t.

(** The client construction and the registrations, in order. *)
Definition is_setup (e : event) : bool :=
  match e with
  | EvApiInit | EvOuterMiddleware _ _ => true
  | _ => false
  end.

(** The drop flag of every webhook clear. *)
Definition drop_flags (t : list event) : list bool :=
  flat_map (fun e => match e with
                     | EvDeleteWebhook d => [d]
                     | _ => []
                     end) t.

(** *** Classes of runs *)

Definition is_interrupt (e : exn) : bool :=
  match e with
  | KeyboardInterrupt | SystemExit _ => true
  | Error _ => false
  end.

Definition succeeds (o : option exn) : bool :=
  match o with
  | None => true
  | Some _ => false
  end.

Definition nonempty {A : Type} (xs : list A) : bool :=
  match xs with
  | [] => false
  | _ :: _ => true
  end.

(** The exception, if any, with which [get_storage] is left: the one of
    [RedisStorage.from_url], which is only called when [use_redis] is
    set. *)
Definition storage_failure (env : Env) (c : Config) : option exn :=
  if use_redis (tg_bot c) then env_from_url env (dsn (redis c)) else None.

(** The store [get_storage] returns when it returns. *)
Definition selected_storage (c : Config) : Storage :=
  if use_redis (tg_bot c) then
    RedisStorage (dsn (redis c))
                 {| with_bot_id := true; with_destiny := true |}
  else MemoryStorage.

(** The runs in which the [async with] block of [main] is entered:
    [load_config], [get_storage], [MyApi()] and [Bot(token=...)] have
    returned. *)
Definition bot_constructed (env : Env) : bool :=
  match env_load_config env with
  | Raised _ => false
  | Normal c =>
      succeeds (storage_failure env c) && succeeds (env_api_init env)
      && succeeds (env_bot_init env)
  end.

(** The exception, if any, of a step before the webhook clear:
    [load_config], [get_storage], [MyApi()], [Bot(token=...)],
    [include_routers]. *)
Definition startup_failure (env : Env) : option exn :=
  match env_load_config env with
  | Raised e => Some e
  | Normal c =>
      match storage_failure env c with
      | Some e => Some e
      | None =>
          match env_api_init env with
          | Some e => Some e
          | None =>
              match env_bot_init env with
              | Some e => Some e
              | None =>
                  if nonempty (routers_list env) then None
                  else Some (Error "ValueError")
              end
          end
      end
  end.

(** The exception that leaves the [async with] block when its body raises
    [e]: the one of the session close, if that raises too. *)
Definition leaving_block (env : Env) (e : exn) : exn :=
  match env_bot_close env with
  | Some e' => e'
  | None => e
  end.


(** The runs in which the [async with] block of [main] is left without an
    exception: every step up to the end of polling returns, and so does the
    close of the bot session. *)
Definition block_completes (env : Env) : bool :=
  match startup_failure env with
  | Some _ => false
  | None =>
      succeeds (env_delete_webhook env) && succeeds (env_polling env)
      && succeeds (env_bot_close env)
  end.



(** *** Sample runs *)

Definition sample_config : Config :=
  {| tg_bot := {| token := "123:abc"; admin_ids := [111%Z; 222%Z];
                  use_redis := false |};
     redis := {| dsn := "redis://localhost:6379/0" |} |}.

(** A run with two administrators, the first of whom cannot be notified,
    one update queued while offline and one arriving during polling; the
    fallible steps end as the arguments say. *)
Definition sample_env (load : result Config)
  (api_init bot_init del_webhook polling bot_close api_close : option exn)
  : Env :=
  {| env_load_config := load;
     env_from_url := fun _ => None;
     routers_list := ["admin"; "user"];
     env_api_init := api_init;
     env_bot_init := bot_init;
     env_delete_webhook := del_webhook;
     env_send := fun user_id => negb (Z.eqb user_id 111);
     env_arrivals := [{| update_id := 8 |}];
     env_polling := polling;
     env_bot_close := bot_close;
     env_api_close := api_close;
     env_webhook := Some "https://example.org/hook";
     env_backlog := [{| update_id := 7 |}] |}.

(** Every step succeeds and polling stops on a stop signal. *)
Definition env_clean : Env :=
  sample_env (Normal sample_config) None None None None None None.

(** The platform cannot be reached when the webhook is cleared. *)
Definition env_webhook_unreachable : Env :=
  sample_env (Normal sample_config) None None
             (Some (Error "TelegramNetworkError")) None None None.

(** Polling is left by a [KeyboardInterrupt]. *)
Definition env_interrupted : Env :=
  sample_env (Normal sample_config) None None None
             (Some KeyboardInterrupt) None None.




(** *** The run of [main], step by step *)

Definition main_chain (c : Config) : list Middleware :=
  [ConfigMiddleware c; ApiMiddleware (VApi MyApi_instance);
   LanguageMiddleware].

Definition main_dispatcher (env : Env) (c : Config) : Dispatcher :=
  {| storage := selected_storage c; routers := routers_list env;
     message := {| middleware := []; outer_middleware := [0; 1; 2] |};
     callback_query :=
       {| middleware := []; outer_middleware := [0; 1; 2] |} |}.

(** The trace up to and including the webhook clear. *)
Definition connected_trace (c : Config) : list event :=
  [EvLog INFO "Starting bot"; EvLoadConfig ".env"; EvApiInit;
   EvBotInit (token (tg_bot c))]
  ++ registration_events [0; 1; 2] ++ [EvDeleteWebhook true].

(** The trace up to the end of polling, with the session close that ends
    it. *)
Definition polling_trace (env : Env) (c : Config) : list event :=
  connected_trace c
  ++ [EvLog INFO "Webhook deleted before polling.";
      EvBroadcast (admin_ids (tg_bot c)) startup_text]
  ++ send_events env startup_text (admin_ids (tg_bot c))
  ++ [EvStartPolling (main_dispatcher env c)]
  ++ map EvUpdate (env_arrivals env)
  ++ [EvBotClose].

Definition main_summary (env : Env) : result unit * World :=
  let wh := env_webhook env in
  let bl := env_backlog env in
  match env_load_config env with
  | Raised e =>
      (Raised e,
       Build_World [EvLog INFO "Starting bot"; EvLoadConfig ".env"] [] wh bl)
  | Normal c =>
      match storage_failure env c with
      | Some e =>
          (Raised e,
           Build_World [EvLog INFO "Starting bot"; EvLoadConfig ".env"]
                       [] wh bl)
      | None =>
      match env_api_init env with
      | Some e =>
          (Raised e,
           Build_World [EvLog INFO "Starting bot"; EvLoadConfig ".env";
                        EvApiInit] [] wh bl)
      | None =>
      match env_bot_init env with
      | Some e =>
          (Raised e,
           Build_World [EvLog INFO "Starting bot"; EvLoadConfig ".env";
                        EvApiInit; EvBotInit (token (tg_bot c))]
                       [] wh bl)
      | None =>
      if nonempty (routers_list env) then
        match env_delete_webhook env with
        | Some e =>
            (Raised (leaving_block env e),
             Build_World (connected_trace c ++ [EvBotClose])
                         (main_chain c) wh bl)
        | None =>
            match env_bot_close env, env_polling env with
            | Some e', _ =>
                (Raised e',
                 Build_World (polling_trace env c ++ [EvBotClose])
                             (main_chain c) None [])
            | None, Some e =>
                (Raised e,
                 Build_World (polling_trace env c ++ [EvBotClose])
                             (main_chain c) None [])
            | None, None =>
                match env_api_close env with
                | Some e =>
                    (Raised e,
                     Build_World
                       (polling_trace env c ++ [EvBotClose; EvApiClose])
                       (main_chain c) None [])
                | None =>
                    (Normal tt,
                     Build_World
                       (polling_trace env c
                        ++ [EvBotClose; EvApiClose;
                            EvLog INFO "API client closed successfully"])
                       (main_chain c) None [])
                end
            end
        end
      else
        (Raised (leaving_block env (Error "ValueError")),
         Build_World [EvLog INFO "Starting bot"; EvLoadConfig ".env";
                      EvApiInit; EvBotInit (token (tg_bot c)); EvBotClose]
                     [] wh bl)
      end
      end
      end
  end.

(** *** Further observations *)

(** The events a step appended to a trace. *)
Definition appended (before after : list event) : list event :=
  skipn (length before) after.

(** The closes of a run: of the bot session and of the API client. *)
Definition is_teardown (e : event) : bool :=
  match e with
  | EvBotClose | EvApiClose => true
  | _ => false
  end.

Definition teardown (t : list event) : list event := filter is_teardown t.

(** A call takes its argument from the loaded configuration: the path of
    the configuration file, the token of the bot, the recipients and the
    text of the broadcast. *)
Definition uses_config (env : Env) (e : event) : Prop :=
  match e with
  | EvLoadConfig path => path = ".env"
  | EvBotInit tok =>
      exists c, env_load_config env = Normal c /\ tok = token (tg_bot c)
  | EvBroadcast users text =>
      exists c, env_load_config env = Normal c
                /\ users = admin_ids (tg_bot c) /\ text = startup_text
  | _ => True
  end.

(** A dispatcher starts polling with the handler groups included and the
    whole chain registered on both observers. *)
Definition polls_configured (env : Env) (w : World) (e : event) : Prop :=
  match e with
  | EvStartPolling dp =>
      routers dp = routers_list env
      /\ middleware (message dp) = []
      /\ middleware (callback_query dp) = []
      /\ outer_middleware (callback_query dp)
         = outer_middleware (message dp)
      /\ exists c,
           env_load_config env = Normal c
           /\ map (resolve w) (outer_middleware (message dp))
              = map Some [ConfigMiddleware c;
                          ApiMiddleware (VApi MyApi_instance);
                          LanguageMiddleware]
  | _ => True
  end.

(** The registrations and the webhook clear. *)
Definition is_registration_or_clear (e : event) : bool :=
  match e with
  | EvOuterMiddleware _ _ | EvDeleteWebhook _ => true
  | _ => false
  end.

(** ** Running [register_global_middlewares] *)

Lemma skipn_length_app {A : Type} (xs ys : list A) :
  skipn (length xs) (xs ++ ys) = ys.
Proof.
  induction xs as [|x xs IH]; simpl; auto.
Qed.

(** The run of [register_global_middlewares] from any dispatcher and any
    world: it never raises, allocates the objects of the reference chain at
    the end of the store, and appends their references, in allocation
    order, to the outer middleware of both observers. *)
Lemma register_global_middlewares_run (dp : Dispatcher)
  (config : Config) (api_client session_pool : value) (w : World) :
  let chain := reference_chain config api_client in
  let refs := seq (length (objects w)) (length chain) in
  register_global_middlewares dp config api_client session_pool w =
    (Normal
       {| storage := storage dp; routers := routers dp;
          message :=
            {| middleware := middleware (message dp);
               outer_middleware := outer_middleware (message dp) ++ refs |};
          callback_query :=
            {| middleware := middleware (callback_query dp);
               outer_middleware :=
                 outer_middleware (callback_query dp) ++ refs |} |},
     {| trace := trace w ++ registration_events refs;
        objects := objects w ++ chain;
        webhook := webhook w; pending := pending w |}).
Proof.
  unfold reference_chain.
  cbv [register_global_middlewares bind ret new_object for_each emit
       message_outer_middleware callback_query_outer_middleware
       log_event add_outer].
  destruct (truthy api_client); cbn;
    rewrite ?length_app; cbn; rewrite ?Nat.add_1_r;
    rewrite <- ?app_assoc; reflexivity.
Qed.

(** ** Running the loops *)

Lemma log_events_app (es1 es2 : list event) (w : World) :
  log_events es2 (log_events es1 w) = log_events (es1 ++ es2) w.
Proof.
  unfold log_events; cbn. now rewrite app_assoc.
Qed.

Lemma log_events_nil (w : World) : log_events [] w = w.
Proof.
  destruct w; unfold log_events; cbn. now rewrite app_nil_r.
Qed.

Lemma broadcast_each_run (env : Env) (bot : Bot) (text : string)
  (users : list Z) :
  forall w : World,
    broadcast_each env bot users text w =
    (Normal tt, log_events (send_events env text users) w).
Proof.
  induction users as [|u users IH]; intros w.
  - cbn. now rewrite log_events_nil.
  - cbn [broadcast_each send_events flat_map].
    unfold bind at 1. unfold emit at 1.
    unfold bind at 1.
    destruct (env_send env u); cbn [ret logging_error emit].
    + rewrite IH. fold (send_events env text users).
      change (log_event (EvSendMessage u text) w)
        with (log_events [EvSendMessage u text] w).
      now rewrite log_events_app.
    + rewrite IH. fold (send_events env text users).
      change (log_event (EvLog ERROR "AdminNotifyFailure")
                (log_event (EvSendMessage u text) w))
        with (log_events [EvLog ERROR "AdminNotifyFailure"]
                (log_events [EvSendMessage u text] w)).
      now rewrite !log_events_app.
Qed.

Lemma broadcast_run (env : Env) (bot : Bot) (text : string)
  (users : list Z) (w : World) :
  broadcast env bot users text w =
  (Normal tt,
   log_events (EvBroadcast users text :: send_events env text users) w).
Proof.
  unfold broadcast, bind, emit. rewrite broadcast_each_run.
  change (log_event (EvBroadcast users text) w)
    with (log_events [EvBroadcast users text] w).
  now rewrite log_events_app.
Qed.

Lemma deliver_run (us : list Update) :
  forall w : World,
    for_each us (fun u _ => emit (EvUpdate u)) tt w =
    (Normal tt, log_events (map EvUpdate us) w).
Proof.
  induction us as [|u us IH]; intros w.
  - cbn. now rewrite log_events_nil.
  - cbn [for_each map]. unfold bind at 1, emit at 1. rewrite IH.
    change (log_event (EvUpdate u) w) with (log_events [EvUpdate u] w).
    now rewrite log_events_app.
Qed.

Lemma start_polling_run (env : Env) (dp : Dispatcher) (bot : Bot)
  (w : World) :
  start_polling env dp bot w =
  (match env_polling env with
   | None => Normal tt
   | Some e => Raised e
   end,
   {| trace := trace w ++ EvStartPolling dp ::
                 map EvUpdate (pending w ++ env_arrivals env)
                 ++ [EvBotClose];
      objects := objects w; webhook := webhook w; pending := [] |}).
Proof.
  unfold start_polling, bind, emit, fetch_updates.
  rewrite deliver_run.
  unfold log_events, log_event; cbn [trace objects webhook pending].
  rewrite <- !app_assoc; cbn [app].
  destruct (env_polling env); reflexivity.
Qed.

Lemma get_storage_run (env : Env) (c : Config) (w : World) :
  get_storage env c w =
  (match storage_failure env c with
   | Some e => Raised e
   | None => Normal (selected_storage c)
   end, w).
Proof.
  unfold get_storage, storage_failure, selected_storage,
    RedisStorage_from_url, bind, outcome, ret, raise.
  destruct (use_redis (tg_bot c)); [|reflexivity].
  destruct (env_from_url env (dsn (redis c))); reflexivity.
Qed.

(** ** Running [main] *)

Lemma delete_webhook_run (env : Env) (bot : Bot) (w : World) :
  delete_webhook env bot w =
  match env_delete_webhook env with
  | Some e => (Raised e, log_event (EvDeleteWebhook true) w)
  | None =>
      (Normal tt,
       {| trace := trace w ++ [EvDeleteWebhook true;
                               EvLog INFO "Webhook deleted before polling."];
          objects := objects w; webhook := None; pending := [] |})
  end.
Proof.
  cbv [delete_webhook Bot_delete_webhook bind emit outcome clear_webhook
       logging_info ret raise].
  destruct (env_delete_webhook env); unfold log_event; cbn;
    rewrite <- ?app_assoc; reflexivity.
Qed.

Lemma main_run (env : Env) : main env (init_world env) = main_summary env.
Proof.
  unfold main_summary.
  cbv [main bind setup_logging logging_info emit load_config ret raise
       MyApi_init outcome async_with Bot_init].
  destruct (env_load_config env) as [c|e]; [|reflexivity].
  cbv [log_event init_world]. cbn [trace objects webhook pending app].
  rewrite get_storage_run.
  destruct (storage_failure env c) as [e|]; [reflexivity|].
  destruct (env_api_init env) as [e|]; [reflexivity|].
  destruct (env_bot_init env) as [e|]; [reflexivity|].
  unfold include_routers, polling_trace, main_dispatcher.
  destruct (routers_list env) as [|r rs].
  { cbv [Bot_aexit bind emit outcome ret raise log_event leaving_block
         nonempty].
    cbn [trace objects webhook pending app].
    destruct (env_bot_close env); reflexivity. }
  cbn [nonempty]. cbv [ret].
  rewrite register_global_middlewares_run.
  cbn [trace objects webhook pending app length reference_chain truthy seq
       Dispatcher_init Observer_init storage routers message
       callback_query middleware outer_middleware registration_events
       flat_map].
  rewrite delete_webhook_run.
  destruct (env_delete_webhook env) as [e|].
  - cbv [Bot_aexit bind emit outcome ret raise log_event connected_trace
         main_chain registration_events flat_map leaving_block].
    cbn [trace objects webhook pending app].
    destruct (env_bot_close env); reflexivity.
  - cbn [trace objects webhook pending app].
    unfold on_startup. rewrite broadcast_run.
    cbv [log_events]. cbn [trace objects webhook pending app].
    rewrite start_polling_run.
    cbn [trace objects webhook pending app].
    cbv [Bot_aexit bind emit outcome ret raise on_shutdown truthy call_close
         MyApi_close logging_info polling_trace connected_trace main_chain
         registration_events flat_map log_event].
    cbn [trace objects webhook pending app].
    destruct (env_polling env), (env_bot_close env);
      try destruct (env_api_close env);
      cbn [trace objects webhook pending app];
      repeat (rewrite <- app_assoc; cbn [app]); reflexivity.
Qed.

(** ** Projections of the traces of the loops *)

Lemma send_events_lifecycle (env : Env) (text : string) (users : list Z) :
  lifecycle (send_events env text users) =
  map (fun user_id => EvSendMessage user_id text) users.
Proof.
  induction users as [|u users IH]; cbn; [reflexivity|].
  unfold lifecycle in IH.
  destruct (env_send env u); cbn; first [exact IH | f_equal; exact IH].
Qed.

Lemma send_events_attempts (env : Env) (text : string) (users : list Z) :
  send_attempts (send_events env text users) = users.
Proof.
  induction users as [|u users IH]; cbn; [reflexivity|].
  unfold send_attempts in IH.
  destruct (env_send env u); cbn; first [exact IH | f_equal; exact IH].
Qed.

Lemma send_events_no_update (env : Env) (text : string) (users : list Z) :
  delivered (send_events env text users) = [].
Proof.
  induction users as [|u users IH]; cbn; [reflexivity|].
  unfold delivered in IH.
  destruct (env_send env u); cbn; first [exact IH | f_equal; exact IH].
Qed.

Lemma send_events_no_close (env : Env) (text : string) (users : list Z) :
  close_calls (send_events env text users) = 0.
Proof.
  induction users as [|u users IH]; cbn; [reflexivity|].
  unfold close_calls in IH.
  destruct (env_send env u); cbn; first [exact IH | f_equal; exact IH].
Qed.

Lemma send_events_no_polling (env : Env) (text : string) (users : list Z) :
  polling_entered (send_events env text users) = false.
Proof.
  induction users as [|u users IH]; cbn; [reflexivity|].
  unfold polling_entered in IH.
  destruct (env_send env u); cbn; first [exact IH | f_equal; exact IH].
Qed.

Lemma send_events_no_registration (env : Env) (text : string)
  (users : list Z) (p : Pipeline) :
  registered_refs p (send_events env text users) = [].
Proof.
  induction users as [|u users IH]; cbn; [reflexivity|].
  unfold registered_refs in IH.
  destruct (env_send env u); cbn; first [exact IH | f_equal; exact IH].
Qed.

Lemma send_events_no_setup (env : Env) (text : string) (users : list Z) :
  filter is_setup (send_events env text users) = [].
Proof.
  induction users as [|u users IH]; cbn; [reflexivity|].
  destruct (env_send env u); cbn; exact IH.
Qed.

Lemma updates_lifecycle (us : list Update) :
  lifecycle (map EvUpdate us) = [].
Proof. induction us; cbn; auto. Qed.

Lemma updates_delivered (us : list Update) :
  delivered (map EvUpdate us) = us.
Proof. induction us as [|u us IH]; cbn; [|unfold delivered in IH]; congruence. Qed.

Lemma updates_no_close (us : list Update) :
  close_calls (map EvUpdate us) = 0.
Proof. induction us; cbn; auto. Qed.

Lemma updates_no_polling (us : list Update) :
  polling_entered (map EvUpdate us) = false.
Proof. induction us; cbn; auto. Qed.

Lemma updates_no_registration (us : list Update) (p : Pipeline) :
  registered_refs p (map EvUpdate us) = [].
Proof. induction us; cbn; auto. Qed.

Lemma updates_no_setup (us : list Update) :
  filter is_setup (map EvUpdate us) = [].
Proof. induction us; cbn; auto. Qed.

Lemma close_calls_app (t1 t2 : list event) :
  close_calls (t1 ++ t2) = close_calls t1 + close_calls t2.
Proof. unfold close_calls. now rewrite filter_app, length_app. Qed.

Lemma polling_entered_app (t1 t2 : list event) :
  polling_entered (t1 ++ t2) = polling_entered t1 || polling_entered t2.
Proof. unfold polling_entered. apply existsb_app. Qed.

Lemma lifecycle_app (t1 t2 : list event) :
  lifecycle (t1 ++ t2) = lifecycle t1 ++ lifecycle t2.
Proof. unfold lifecycle. apply filter_app. Qed.

Lemma delivered_app (t1 t2 : list event) :
  delivered (t1 ++ t2) = delivered t1 ++ delivered t2.
Proof. unfold delivered. apply flat_map_app. Qed.

Lemma send_attempts_app (t1 t2 : list event) :
  send_attempts (t1 ++ t2) = send_attempts t1 ++ send_attempts t2.
Proof. unfold send_attempts. apply flat_map_app. Qed.

Lemma registered_refs_app (p : Pipeline) (t1 t2 : list event) :
  registered_refs p (t1 ++ t2) = registered_refs p t1 ++ registered_refs p t2.
Proof. unfold registered_refs. apply flat_map_app. Qed.

Lemma resolve_fresh (xs ys : list Middleware) :
  map (nth_error (xs ++ ys)) (seq (length xs) (length ys)) = map Some ys.
Proof.
  revert xs; induction ys as [|y ys IH]; intros xs; cbn; [reflexivity|].
  rewrite nth_error_app2, Nat.sub_diag by lia. cbn. f_equal.
  specialize (IH (xs ++ [y])).
  rewrite <- app_assoc, length_app, Nat.add_1_r in IH. exact IH.
Qed.

(** ** The middleware chain *)

(** C1.  Every call of [register_global_middlewares] returns, and the chain
    it registers on a pipeline, read in registration order, is
    [ConfigMiddleware; ApiMiddleware; LanguageMiddleware] when [api_client]
    is truthy and [ConfigMiddleware] alone when it is [None] or falsy; in
    both cases its first element is the [ConfigMiddleware] built from the
    given configuration. *)
Theorem register_global_middlewares_chain (dp : Dispatcher) (config : Config)
  (api_client session_pool : value) (w : World) :
  exists (dp' : Dispatcher) (w' : World),
    register_global_middlewares dp config api_client session_pool w
    = (Normal dp', w')
    /\ outer_middleware (message dp')
       = outer_middleware (message dp)
         ++ registered_on (message dp) (message dp')
    /\ outer_middleware (callback_query dp')
       = outer_middleware (callback_query dp)
         ++ registered_on (callback_query dp) (callback_query dp')
    /\ map (resolve w') (registered_on (message dp) (message dp'))
       = map Some
           (if truthy api_client then
              [ConfigMiddleware config; ApiMiddleware api_client;
               LanguageMiddleware]
            else [ConfigMiddleware config])
    /\ map (resolve w')
           (registered_on (callback_query dp) (callback_query dp'))
       = map (resolve w') (registered_on (message dp) (message dp'))
    /\ hd_error (map (resolve w') (registered_on (message dp) (message dp')))
       = Some (Some (ConfigMiddleware config)).
Proof.
  rewrite register_global_middlewares_run.
  do 2 eexists. split; [reflexivity|].
  unfold registered_on, resolve; cbn [message callback_query
    outer_middleware objects].
  rewrite !skipn_length_app, resolve_fresh.
  unfold reference_chain.
  repeat split; destruct (truthy api_client); reflexivity.
Qed.

(** C6.  Every call of [register_global_middlewares] appends one and the same
    list of references to the outer middleware of the message observer and
    of the callback-query observer, so that both hold the same objects in
    the same order.  The references denote the middleware of the chain:
    three objects when [api_client] is truthy, one otherwise.  They are
    pairwise distinct, each denotes an object that this call constructed,
    one object is constructed per reference (none is copied), each is
    registered on the message observer and then on the callback-query
    observer, and the inner middleware of both observers is left as it
    was. *)
Theorem register_global_middlewares_shared (dp : Dispatcher) (config : Config)
  (api_client session_pool : value) (w : World) :
  exists (dp' : Dispatcher) (w' : World) (refs : list ref),
    register_global_middlewares dp config api_client session_pool w
    = (Normal dp', w')
    /\ outer_middleware (message dp')
       = outer_middleware (message dp) ++ refs
    /\ outer_middleware (callback_query dp')
       = outer_middleware (callback_query dp) ++ refs
    /\ map (resolve w') refs
       = map Some
           (if truthy api_client then
              [ConfigMiddleware config; ApiMiddleware api_client;
               LanguageMiddleware]
            else [ConfigMiddleware config])
    /\ middleware (message dp') = middleware (message dp)
    /\ middleware (callback_query dp') = middleware (callback_query dp)
    /\ NoDup refs
    /\ Forall (fun r => resolve w r = None /\ resolve w' r <> None) refs
    /\ length (objects w') = length (objects w) + length refs
    /\ trace w' = trace w ++ registration_events refs.
Proof.
  rewrite register_global_middlewares_run.
  do 3 eexists. split; [reflexivity|].
  cbn [message callback_query outer_middleware middleware objects trace].
  repeat split.
  - unfold resolve; cbn [objects]. rewrite resolve_fresh.
    unfold reference_chain. now destruct (truthy api_client).
  - apply seq_NoDup.
  - apply Forall_forall. intros r Hr. apply in_seq in Hr.
    unfold resolve; cbn [objects]. split.
    + apply nth_error_None. lia.
    + apply nth_error_Some. rewrite length_app. lia.
  - now rewrite length_app, length_seq.
Qed.

(** ** Properties of every event of a trace *)

Lemma send_events_Forall (P : event -> Prop) (env : Env) (text : string)
  (users : list Z) :
  (forall u, P (EvSendMessage u text)) ->
  P (EvLog ERROR "AdminNotifyFailure") ->
  Forall P (send_events env text users).
Proof.
  intros Hsend Hlog.
  induction users as [|u users IH]; cbn; [constructor|].
  destruct (env_send env u); repeat (constructor; auto).
Qed.

Lemma updates_Forall (P : event -> Prop) (us : list Update) :
  (forall u, P (EvUpdate u)) -> Forall P (map EvUpdate us).
Proof.
  intros Hu. induction us; cbn; constructor; auto.
Qed.

Lemma polling_trace_Forall (P : event -> Prop) (env : Env) (c : Config) :
  Forall P (connected_trace c) ->
  P (EvLog INFO "Webhook deleted before polling.") ->
  P (EvBroadcast (admin_ids (tg_bot c)) startup_text) ->
  (forall u, P (EvSendMessage u startup_text)) ->
  P (EvLog ERROR "AdminNotifyFailure") ->
  P (EvStartPolling (main_dispatcher env c)) ->
  (forall u, P (EvUpdate u)) ->
  P EvBotClose ->
  Forall P (polling_trace env c).
Proof.
  intros Hconn Hlog Hb Hsend Herr Hpoll Hupd Hclose. unfold polling_trace.
  apply Forall_app; split; [exact Hconn|].
  apply Forall_app; split; [repeat constructor; auto|].
  apply Forall_app; split; [now apply send_events_Forall|].
  apply Forall_app; split; [repeat constructor; auto|].
  apply Forall_app; split; [now apply updates_Forall|].
  repeat constructor; auto.
Qed.

Lemma filter_none {A : Type} (f : A -> bool) (xs : list A) :
  Forall (fun x => f x = false) xs -> filter f xs = [].
Proof.
  induction 1 as [|x xs Hx _ IH]; cbn; [reflexivity|].
  now rewrite Hx.
Qed.


(** ** Projections of the trace of [main] up to the end of polling *)

Lemma send_events_no_clear (env : Env) (text : string) (users : list Z) :
  drop_flags (send_events env text users) = [].
Proof.
  induction users as [|u users IH]; cbn; [reflexivity|].
  unfold drop_flags in IH.
  destruct (env_send env u); cbn; first [exact IH | f_equal; exact IH].
Qed.

Lemma updates_no_clear (us : list Update) :
  drop_flags (map EvUpdate us) = [].
Proof. induction us; cbn; auto. Qed.

Lemma drop_flags_app (t1 t2 : list event) :
  drop_flags (t1 ++ t2) = drop_flags t1 ++ drop_flags t2.
Proof. unfold drop_flags. apply flat_map_app. Qed.

Section PollingTrace.

Variables (env : Env) (c : Config).

Lemma polling_trace_lifecycle :
  lifecycle (polling_trace env c)
  = EvDeleteWebhook true
    :: EvBroadcast (admin_ids (tg_bot c)) startup_text
    :: map (fun a => EvSendMessage a startup_text) (admin_ids (tg_bot c))
    ++ [EvStartPolling (main_dispatcher env c)].
Proof.
  unfold polling_trace.
  rewrite !lifecycle_app, send_events_lifecycle, updates_lifecycle.
  reflexivity.
Qed.

Lemma polling_trace_close_calls : close_calls (polling_trace env c) = 0.
Proof.
  unfold polling_trace.
  rewrite !close_calls_app, send_events_no_close, updates_no_close.
  reflexivity.
Qed.

Lemma polling_trace_delivered :
  delivered (polling_trace env c) = env_arrivals env.
Proof.
  unfold polling_trace.
  rewrite !delivered_app, send_events_no_update, updates_delivered.
  change (delivered [EvBotClose]) with (@nil Update).
  rewrite app_nil_r. reflexivity.
Qed.

Lemma polling_trace_drop_flags : drop_flags (polling_trace env c) = [true].
Proof.
  unfold polling_trace.
  rewrite !drop_flags_app, send_events_no_clear, updates_no_clear.
  reflexivity.
Qed.

Lemma polling_trace_entered : polling_entered (polling_trace env c) = true.
Proof.
  unfold polling_trace.
  rewrite !polling_entered_app, send_events_no_polling, updates_no_polling.
  reflexivity.
Qed.

Lemma polling_trace_registered (p : Pipeline) :
  registered_refs p (polling_trace env c) = [0; 1; 2].
Proof.
  unfold polling_trace.
  rewrite !registered_refs_app, send_events_no_registration,
    updates_no_registration.
  destruct p; reflexivity.
Qed.

Lemma polling_trace_setup :
  filter is_setup (polling_trace env c)
  = EvApiInit :: registration_events [0; 1; 2].
Proof.
  unfold polling_trace.
  rewrite !filter_app, send_events_no_setup, updates_no_setup.
  reflexivity.
Qed.

End PollingTrace.

(** ** Storage selection *)





(** ** The administrator broadcast *)

(** C9.  Whatever sends fail, [on_startup] returns without raising and has
    attempted a send to every administrator of the list, in the order of
    the list; and whether [main] enters polling does not depend on the
    outcome of any send: it does exactly when the steps before the
    broadcast succeeded. *)
Theorem on_startup_best_effort (env : Env) (bot : Bot) (admins : list Z)
  (w : World) :
  fst (on_startup env bot admins w) = Normal tt
  /\ send_attempts (trace (snd (on_startup env bot admins w)))
     = send_attempts (trace w) ++ admins
  /\ polling_entered (trace (snd (main env (init_world env))))
     = match startup_failure env with
       | Some _ => false
       | None => succeeds (env_delete_webhook env)
       end.
Proof.
  unfold on_startup. rewrite broadcast_run. cbn [fst snd].
  split; [reflexivity|]. split.
  - unfold log_events; cbn [trace].
    rewrite send_attempts_app. cbn.
    fold (send_attempts (send_events env startup_text admins)).
    now rewrite send_events_attempts.
  - rewrite main_run. unfold main_summary, startup_failure.
    destruct (env_load_config env) as [c|e]; [|reflexivity].
    destruct (storage_failure env c); [reflexivity|].
    destruct (env_api_init env); [reflexivity|].
    destruct (env_bot_init env); [reflexivity|].
    destruct (nonempty (routers_list env)); [|reflexivity].
    destruct (env_delete_webhook env); [reflexivity|].
    destruct (env_bot_close env), (env_polling env), (env_api_close env);
      cbn [snd trace succeeds];
      rewrite polling_entered_app, polling_trace_entered; reflexivity.
Qed.

(** The scenario of the spec: of two administrators the first cannot be
    notified; the second is still sent the notification. *)
Example on_startup_two_admins :
  send_attempts
    (trace (snd (on_startup env_clean {| bot_token := "123:abc" |}
                            [111%Z; 222%Z] (init_world env_clean))))
  = [111%Z; 222%Z]
  /\ env_send env_clean 111 = false /\ env_send env_clean 222 = true.
Proof. repeat split. Qed.

(** ** Exit status *)

(** C7.  If [main] is left by [KeyboardInterrupt] or [SystemExit], the guard
    logs the message "Бот був вимкнений!" as the last record of the run and
    the process exits with status 0. *)
Theorem interrupt_exits_zero (env : Env) (e : exn)
  (Hraised : fst (main env (init_world env)) = Raised e)
  (Hint : is_interrupt e = true) :
  fst (script env) = 0%Z
  /\ trace (snd (script env))
     = trace (snd (main env (init_world env)))
       ++ [EvLog ERROR interrupted_text].
Proof.
  unfold script.
  destruct (main env (init_world env)) as [r w]; cbn in Hraised; subst r.
  destruct e; try discriminate; split; reflexivity.
Qed.

Lemma interrupt_exits_zero_witness :
  fst (script env_interrupted) = 0%Z
  /\ trace (snd (script env_interrupted))
     = trace (snd (main env_interrupted (init_world env_interrupted)))
       ++ [EvLog ERROR interrupted_text].
Proof.
  apply (interrupt_exits_zero env_interrupted KeyboardInterrupt);
    reflexivity.
Defined.




(** ** The startup sequence *)

(** C2.  In every run of [main] the startup steps that take place, in the
    order in which they take place, are an initial segment of the sequence:
    webhook clear, administrator broadcast, one send per administrator,
    start of polling.  The segment is empty when a step before the webhook
    clear raises, stops after the webhook clear when that call raises, and
    is the whole sequence otherwise. *)
Theorem main_startup_order (env : Env) :
  exists (admins : list Z) (dp : Dispatcher),
    lifecycle (trace (snd (main env (init_world env))))
    = firstn
        (match startup_failure env with
         | Some _ => 0
         | None =>
             if succeeds (env_delete_webhook env)
             then 3 + length admins else 1
         end)
        (EvDeleteWebhook true
         :: EvBroadcast admins startup_text
         :: map (fun a => EvSendMessage a startup_text) admins
         ++ [EvStartPolling dp]).
Proof.
  rewrite main_run. unfold main_summary, startup_failure.
  destruct (env_load_config env) as [c|e];
    [|exists [], (Dispatcher_init MemoryStorage); reflexivity].
  exists (admin_ids (tg_bot c)), (main_dispatcher env c).
  destruct (storage_failure env c); [reflexivity|].
  destruct (env_api_init env); [reflexivity|].
  destruct (env_bot_init env); [reflexivity|].
  destruct (nonempty (routers_list env)); [|reflexivity].
  destruct (env_delete_webhook env); [reflexivity|].
  cbn [succeeds].
  rewrite firstn_all2
    by (cbn; rewrite length_app, length_map; cbn; lia).
  destruct (env_bot_close env), (env_polling env), (env_api_close env);
    cbn [snd trace]; rewrite lifecycle_app, polling_trace_lifecycle;
    cbn; now rewrite app_nil_r.
Qed.

(** ** Shutdown *)

(** C4, as stated, fails: when the platform cannot be reached while the
    webhook is cleared, the exception leaves [main] before [on_shutdown] is
    reached, and the run ends without any call of [close()]. *)
Lemma close_exactly_once_fails :
  close_calls (trace (snd (script env_webhook_unreachable))) <> 1.
Proof.
  cbn. discriminate.
Qed.

(** C4, amended.  A run of the process calls the client's [close()] exactly
    once when the [async with] block of [main] is left without an exception
    (whatever updates were dispatched, and also when none was), and not at
    all otherwise; [on_shutdown] applied to [None] or to another falsy value
    calls nothing and returns without raising. *)
Theorem shutdown_closes_once (env : Env) (v : value) (w : World) :
  close_calls (trace (snd (script env)))
  = (if block_completes env then 1 else 0)
  /\ (truthy v = false -> on_shutdown env v w = (Normal tt, w)).
Proof.
  split.
  - unfold script. rewrite main_run.
    unfold main_summary, block_completes, startup_failure.
    destruct (env_load_config env) as [c|e]; [|destruct e; reflexivity].
    destruct (storage_failure env c) as [e|]; [destruct e; reflexivity|].
    destruct (env_api_init env) as [e|]; [destruct e; reflexivity|].
    destruct (env_bot_init env) as [e|]; [destruct e; reflexivity|].
    destruct (nonempty (routers_list env));
      [|unfold leaving_block; destruct (env_bot_close env) as [e'|];
        [destruct e'|]; reflexivity].
    destruct (env_delete_webhook env) as [e|].
    + unfold leaving_block. destruct (env_bot_close env) as [e'|];
        [destruct e'|destruct e]; reflexivity.
    + destruct (env_bot_close env) as [e'|].
      * destruct e'; cbn [snd trace log_event logging_error emit];
          rewrite !close_calls_app, polling_trace_close_calls;
          cbn; now rewrite andb_false_r.
      * destruct (env_polling env) as [e|].
        -- destruct e; cbn [snd trace log_event logging_error emit];
             rewrite !close_calls_app, polling_trace_close_calls;
             reflexivity.
        -- destruct (env_api_close env) as [e|]; [destruct e|];
             cbn [snd trace log_event logging_error emit];
             rewrite !close_calls_app, polling_trace_close_calls;
             reflexivity.
  - intros Hfalsy. unfold on_shutdown. now rewrite Hfalsy.
Qed.

Lemma shutdown_closes_once_witness :
  close_calls (trace (snd (script env_clean))) = 1
  /\ on_shutdown env_clean VNone (init_world env_clean)
     = (Normal tt, init_world env_clean).
Proof.
  destruct (shutdown_closes_once env_clean VNone (init_world env_clean))
    as [Hcount Hnone].
  split; [exact Hcount | apply Hnone; reflexivity].
Defined.

(** ** Pending updates *)

(** C5.  [delete_webhook] clears the webhook with [drop_pending_updates]
    set, and when the call succeeds no update is left pending.  Every
    webhook clear of a run of [main] has the flag set, and the updates the
    dispatcher is handed in a run are the ones that arrived during polling:
    none of those queued while the bot was offline is delivered. *)
Theorem delete_webhook_drops_pending (env : Env) (bot : Bot) (w : World) :
  drop_flags (trace (snd (delete_webhook env bot w)))
  = drop_flags (trace w) ++ [true]
  /\ pending (snd (delete_webhook env bot w))
     = (if succeeds (env_delete_webhook env) then [] else pending w)
  /\ Forall (fun flag => flag = true)
            (drop_flags (trace (snd (main env (init_world env)))))
  /\ delivered (trace (snd (main env (init_world env))))
     = (if polling_entered (trace (snd (main env (init_world env))))
        then env_arrivals env else []).
Proof.
  repeat split.
  - rewrite delete_webhook_run.
    destruct (env_delete_webhook env); cbn [snd trace log_event];
      rewrite drop_flags_app; reflexivity.
  - rewrite delete_webhook_run.
    destruct (env_delete_webhook env); reflexivity.
  - rewrite main_run. unfold main_summary.
    destruct (env_load_config env) as [c|e]; [|constructor].
    destruct (storage_failure env c); [constructor|].
    destruct (env_api_init env); [constructor|].
    destruct (env_bot_init env); [constructor|].
    destruct (nonempty (routers_list env)); [|constructor].
    destruct (env_delete_webhook env), (env_bot_close env),
      (env_polling env), (env_api_close env); cbn [snd trace];
      try (repeat constructor; fail);
      rewrite drop_flags_app, polling_trace_drop_flags;
      repeat constructor.
  - rewrite main_run. unfold main_summary.
    destruct (env_load_config env) as [c|e]; [|reflexivity].
    destruct (storage_failure env c); [reflexivity|].
    destruct (env_api_init env); [reflexivity|].
    destruct (env_bot_init env); [reflexivity|].
    destruct (nonempty (routers_list env)); [|reflexivity].
    destruct (env_delete_webhook env), (env_bot_close env),
      (env_polling env), (env_api_close env); cbn [snd trace];
      try reflexivity;
      rewrite delivered_app, polling_entered_app,
        polling_trace_delivered, polling_trace_entered;
      cbn; now rewrite app_nil_r.
Qed.

(** Without the flag the updates queued while offline stay pending, and
    polling hands them to the dispatcher first. *)
Example webhook_clear_without_drop :
  let bot := {| bot_token := "123:abc" |} in
  let w := snd (Bot_delete_webhook env_clean bot false
                                   (init_world env_clean)) in
  pending w = [{| update_id := 7 |}]
  /\ delivered (trace (snd (start_polling env_clean
                              (Dispatcher_init MemoryStorage) bot w)))
     = [{| update_id := 7 |}; {| update_id := 8 |}].
Proof. split; reflexivity. Qed.

(** ** The chain [main] registers *)

(** C10.  A [MyApi] instance is truthy.  In every run of [main] the client
    is constructed before any middleware is registered, and the chain
    registered on either pipeline is [ConfigMiddleware; ApiMiddleware;
    LanguageMiddleware] as soon as [load_config], [get_storage], [MyApi()],
    [Bot(token=...)] and [include_routers] have returned (nothing is
    registered before that); it is never [ConfigMiddleware] alone.  That
    chain is what a direct call of [register_global_middlewares] with the
    default [api_client=None] registers. *)
Theorem main_registers_full_chain (env : Env) :
  let w := snd (main env (init_world env)) in
  truthy (VApi MyApi_instance) = true
  /\ map (resolve w) (registered_refs Message (trace w))
     = match env_load_config env with
       | Normal c =>
           if succeeds (storage_failure env c)
              && succeeds (env_api_init env) && succeeds (env_bot_init env)
              && nonempty (routers_list env)
           then map Some [ConfigMiddleware c;
                          ApiMiddleware (VApi MyApi_instance);
                          LanguageMiddleware]
           else []
       | Raised _ => []
       end
  /\ registered_refs CallbackQuery (trace w)
     = registered_refs Message (trace w)
  /\ (forall c : Config,
        map (resolve w) (registered_refs Message (trace w))
        <> [Some (ConfigMiddleware c)])
  /\ (exists k : nat,
        filter is_setup (trace w)
        = firstn k (EvApiInit :: registration_events [0; 1; 2]))
  /\ (forall (dp : Dispatcher) (c : Config) (w0 : World),
        exists (dp' : Dispatcher) (w' : World),
          register_global_middlewares dp c VNone VNone w0 = (Normal dp', w')
          /\ map (resolve w') (registered_on (message dp) (message dp'))
             = [Some (ConfigMiddleware c)]).
Proof.
  cbn zeta. rewrite main_run. unfold main_summary.
  split; [reflexivity|].
  assert (Hdirect :
    forall (dp : Dispatcher) (c : Config) (w0 : World),
      exists (dp' : Dispatcher) (w' : World),
        register_global_middlewares dp c VNone VNone w0 = (Normal dp', w')
        /\ map (resolve w') (registered_on (message dp) (message dp'))
           = [Some (ConfigMiddleware c)]).
  { intros dp c w0. rewrite register_global_middlewares_run.
    do 2 eexists. split; [reflexivity|].
    unfold registered_on, resolve; cbn [message outer_middleware objects].
    rewrite skipn_length_app. apply resolve_fresh. }
  destruct (env_load_config env) as [c|e].
  2:{ repeat split; try easy. now exists 0. }
  destruct (storage_failure env c).
  { repeat split; try easy. now exists 0. }
  destruct (env_api_init env).
  { repeat split; try easy. now exists 1. }
  destruct (env_bot_init env).
  { repeat split; try easy. now exists 1. }
  cbn [succeeds andb].
  destruct (nonempty (routers_list env)).
  2:{ repeat split; try easy. now exists 1. }
  destruct (env_delete_webhook env).
  { destruct (env_bot_close env); repeat split; try easy; now exists 7. }
  destruct (env_bot_close env), (env_polling env), (env_api_close env);
    cbn [snd trace];
    rewrite !registered_refs_app, !polling_trace_registered, filter_app,
      polling_trace_setup;
    (repeat split; try easy; now exists 7).
Qed.

(** ** Further properties of [on_shutdown] and [delete_webhook] *)

(** X1.  Applied to a client, [on_shutdown] calls [close()] exactly once,
    whether or not the call raises; an exception of [close()] is propagated
    as it is, and the record "API client closed successfully" is logged
    exactly when [close()] returned. *)
Theorem on_shutdown_client (env : Env) (c : MyApi) (w : World) :
  close_calls (trace (snd (on_shutdown env (VApi c) w)))
  = close_calls (trace w) + 1
  /\ fst (on_shutdown env (VApi c) w)
     = match env_api_close env with
       | Some e => Raised e
       | None => Normal tt
       end
  /\ trace (snd (on_shutdown env (VApi c) w))
     = trace w
       ++ EvApiClose
          :: (if succeeds (env_api_close env)
              then [EvLog INFO "API client closed successfully"]
              else []).
Proof.
  cbv [on_shutdown truthy call_close MyApi_close bind emit outcome ret raise
       logging_info log_event].
  destruct (env_api_close env); cbn [fst snd trace succeeds];
    rewrite <- ?app_assoc; cbn [app];
    rewrite close_calls_app; repeat split; reflexivity.
Qed.

(** X2.  The guard [if api_client:] only tests the truth value: applied to a
    truthy value that is not a client, [on_shutdown] raises
    [AttributeError], having logged and closed nothing. *)
Theorem on_shutdown_not_a_client (env : Env) (v : value) (w : World)
  (Htruthy : truthy v = true) (Hother : forall c : MyApi, v <> VApi c) :
  on_shutdown env v w = (Raised (Error "AttributeError"), w).
Proof.
  unfold on_shutdown. rewrite Htruthy.
  destruct v as [|b|z|s|c]; try reflexivity.
  now destruct (Hother c).
Qed.

Lemma on_shutdown_not_a_client_witness :
  on_shutdown env_clean (VInt 1) (init_world env_clean)
  = (Raised (Error "AttributeError"), init_world env_clean).
Proof.
  apply (on_shutdown_not_a_client env_clean (VInt 1) (init_world env_clean)).
  - reflexivity.
  - intros c H. discriminate H.
Defined.

(** X3.  [delete_webhook] propagates an exception of the clear call as it
    is and then logs nothing; it logs "Webhook deleted before polling.",
    after the call, exactly when the call returned. *)
Theorem delete_webhook_outcome (env : Env) (bot : Bot) (w : World) :
  fst (delete_webhook env bot w)
  = match env_delete_webhook env with
    | Some e => Raised e
    | None => Normal tt
    end
  /\ appended (trace w) (trace (snd (delete_webhook env bot w)))
     = EvDeleteWebhook true
       :: (if succeeds (env_delete_webhook env)
           then [EvLog INFO "Webhook deleted before polling."]
           else []).
Proof.
  rewrite delete_webhook_run. unfold appended.
  destruct (env_delete_webhook env);
    cbn [fst snd trace log_event succeeds];
    rewrite skipn_length_app; split; reflexivity.
Qed.

(** ** Further properties of [register_global_middlewares] *)

(** X5.  Registration is not idempotent: a second call with the same
    arguments constructs the chain anew and appends it after the first one
    on both observers, so each pipeline then runs the chain twice, through
    pairwise distinct objects. *)
Theorem register_global_middlewares_twice (dp : Dispatcher) (config : Config)
  (api_client session_pool : value) (w : World) :
  exists (dp1 : Dispatcher) (w1 : World) (dp2 : Dispatcher) (w2 : World),
    register_global_middlewares dp config api_client session_pool w
    = (Normal dp1, w1)
    /\ register_global_middlewares dp1 config api_client session_pool w1
       = (Normal dp2, w2)
    /\ map (resolve w2) (registered_on (message dp) (message dp2))
       = map Some (reference_chain config api_client
                   ++ reference_chain config api_client)
    /\ NoDup (registered_on (message dp) (message dp2))
    /\ registered_on (callback_query dp) (callback_query dp2)
       = registered_on (message dp) (message dp2).
Proof.
  rewrite register_global_middlewares_run.
  do 2 eexists.
  rewrite register_global_middlewares_run.
  do 2 eexists.
  split; [reflexivity|]. split; [reflexivity|].
  unfold registered_on, resolve.
  cbn [message callback_query outer_middleware objects].
  rewrite <- !app_assoc, !skipn_length_app.
  set (chain := reference_chain config api_client).
  set (n := length (objects w)).
  replace (length (objects w ++ chain)) with (n + length chain)
    by (now rewrite length_app).
  rewrite <- seq_app.
  replace (length chain + length chain) with (length (chain ++ chain))
    by (now rewrite length_app).
  repeat split.
  - apply resolve_fresh.
  - apply seq_NoDup.
Qed.

(** X6.  Registration only extends: the storage and the handler groups of
    the dispatcher, the outer middleware already registered on either
    observer, the objects already in the store and the platform's state are
    all left as they were. *)
Theorem register_global_middlewares_frame (dp : Dispatcher) (config : Config)
  (api_client session_pool : value) (w : World) :
  exists (dp' : Dispatcher) (w' : World),
    register_global_middlewares dp config api_client session_pool w
    = (Normal dp', w')
    /\ storage dp' = storage dp
    /\ routers dp' = routers dp
    /\ firstn (length (outer_middleware (message dp)))
              (outer_middleware (message dp'))
       = outer_middleware (message dp)
    /\ firstn (length (outer_middleware (callback_query dp)))
              (outer_middleware (callback_query dp'))
       = outer_middleware (callback_query dp)
    /\ firstn (length (objects w)) (objects w') = objects w
    /\ webhook w' = webhook w
    /\ pending w' = pending w.
Proof.
  rewrite register_global_middlewares_run.
  do 2 eexists. split; [reflexivity|].
  cbn [storage routers message callback_query outer_middleware objects
       webhook pending].
  rewrite !firstn_app, !Nat.sub_diag, !firstn_all, !firstn_O, !app_nil_r.
  repeat split.
Qed.

(** ** Further properties of [main] and of the script *)

Lemma teardown_app (t1 t2 : list event) :
  teardown (t1 ++ t2) = teardown t1 ++ teardown t2.
Proof. unfold teardown. apply filter_app. Qed.

Lemma polling_trace_teardown (env : Env) (c : Config) :
  teardown (polling_trace env c) = [EvBotClose].
Proof.
  unfold polling_trace. rewrite !teardown_app.
  unfold teardown at 3 5.
  rewrite (filter_none _ (send_events env startup_text _))
    by (apply send_events_Forall; reflexivity).
  rewrite (filter_none _ (map EvUpdate _))
    by (apply updates_Forall; reflexivity).
  reflexivity.
Qed.

Lemma script_teardown (env : Env) :
  teardown (trace (snd (script env)))
  = teardown (trace (snd (main env (init_world env)))).
Proof.
  unfold script.
  destruct (main env (init_world env)) as [[u|e] w]; [reflexivity|].
  destruct e; cbn [snd trace logging_error emit log_event];
    rewrite teardown_app; cbn; apply app_nil_r.
Qed.

(** X8.  Once the [Bot] is constructed its session is closed on every path:
    by [Bot.__aexit__] in every such run, also when a step of the block
    raises, and before that by [start_polling] on its way out when polling
    was entered.  It is never closed when the [Bot] was not constructed.
    The API client is closed only after the session closes, and only when
    the [async with] block was left without an exception. *)
Theorem main_teardown (env : Env) :
  teardown (trace (snd (script env)))
  = if bot_constructed env then
      match startup_failure env with
      | Some _ => [EvBotClose]
      | None =>
          if succeeds (env_delete_webhook env) then
            EvBotClose :: EvBotClose
            :: (if block_completes env then [EvApiClose] else [])
          else [EvBotClose]
      end
    else [].
Proof.
  rewrite script_teardown, main_run.
  unfold main_summary, block_completes, bot_constructed, startup_failure.
  destruct (env_load_config env) as [c|e]; [|reflexivity].
  destruct (storage_failure env c); [reflexivity|].
  destruct (env_api_init env); [reflexivity|].
  destruct (env_bot_init env); [reflexivity|].
  cbn [succeeds andb].
  destruct (nonempty (routers_list env)); [|reflexivity].
  destruct (env_delete_webhook env); [reflexivity|].
  destruct (env_bot_close env), (env_polling env), (env_api_close env);
    cbn [snd trace succeeds andb];
    rewrite teardown_app, polling_trace_teardown; reflexivity.
Qed.

(** X9.  Every run begins by logging "Starting bot" and loading the
    configuration from ".env"; the bot is constructed with the token of the
    loaded configuration, and the broadcaster is called with the
    administrators of the loaded configuration and the startup text. *)
Theorem main_uses_config (env : Env) :
  firstn 2 (trace (snd (main env (init_world env))))
  = [EvLog INFO "Starting bot"; EvLoadConfig ".env"]
  /\ Forall (uses_config env) (trace (snd (main env (init_world env)))).
Proof.
  rewrite main_run. unfold main_summary.
  destruct (env_load_config env) as [c|e] eqn:Hc;
    [|split; [reflexivity|repeat constructor]].
  assert (Hconn : Forall (uses_config env) (connected_trace c)).
  { unfold connected_trace. repeat constructor; cbn; eauto. }
  assert (Hp : Forall (uses_config env) (polling_trace env c)).
  { apply polling_trace_Forall; cbn; eauto. }
  destruct (storage_failure env c);
    [split; [reflexivity|repeat constructor]|].
  destruct (env_api_init env);
    [split; [reflexivity|repeat constructor]|].
  destruct (env_bot_init env);
    [split; [reflexivity|repeat constructor; cbn; eauto]|].
  destruct (nonempty (routers_list env));
    [|split; [reflexivity|repeat constructor; cbn; eauto]].
  destruct (env_delete_webhook env), (env_bot_close env),
    (env_polling env), (env_api_close env); cbn [snd trace];
    (split; [reflexivity|]);
    apply Forall_app; split; auto; repeat constructor.
Qed.

(** X10.  Whenever polling starts, the dispatcher is fully set up: the
    handler groups of [routers_list] are included, both observers hold the
    same outer middleware, which denotes the chain [ConfigMiddleware;
    ApiMiddleware; LanguageMiddleware] built from the loaded configuration,
    and no inner middleware is registered. *)
Theorem main_polls_configured (env : Env) :
  Forall (polls_configured env (snd (main env (init_world env))))
         (trace (snd (main env (init_world env)))).
Proof.
  rewrite main_run. unfold main_summary.
  destruct (env_load_config env) as [c|e] eqn:Hc; [|repeat constructor].
  destruct (storage_failure env c); [repeat constructor|].
  destruct (env_api_init env); [repeat constructor|].
  destruct (env_bot_init env); [repeat constructor|].
  destruct (nonempty (routers_list env)); [|repeat constructor].
  destruct (env_delete_webhook env), (env_bot_close env),
    (env_polling env), (env_api_close env); cbn [snd trace];
    apply Forall_app; split; try (repeat constructor; fail);
    apply polling_trace_Forall; try exact I; try (intros; exact I);
    try (repeat constructor; fail);
    cbn; repeat split; exists c; split; auto.
Qed.

(** X11.  If [main] returns, the run went through the whole lifecycle:
    polling was entered and received exactly the updates that arrived, the
    bot session was closed by [start_polling] and again by
    [Bot.__aexit__], then the client was closed, once, the last record is
    "API client closed successfully", the platform holds neither a webhook
    nor pending updates, and the script exits with status 0. *)
Theorem main_returns (env : Env)
  (Hret : fst (main env (init_world env)) = Normal tt) :
  let w := snd (main env (init_world env)) in
  polling_entered (trace w) = true
  /\ delivered (trace w) = env_arrivals env
  /\ teardown (trace w) = [EvBotClose; EvBotClose; EvApiClose]
  /\ close_calls (trace w) = 1
  /\ (exists t : list event,
        trace w = t ++ [EvLog INFO "API client closed successfully"])
  /\ webhook w = None
  /\ pending w = []
  /\ script env = (0%Z, w).
Proof.
  cbn zeta. unfold script. revert Hret. rewrite main_run.
  unfold main_summary, leaving_block.
  destruct (env_load_config env) as [c|e]; [|discriminate].
  destruct (storage_failure env c); [discriminate|].
  destruct (env_api_init env); [discriminate|].
  destruct (env_bot_init env); [discriminate|].
  destruct (nonempty (routers_list env));
    [|destruct (env_bot_close env); discriminate].
  destruct (env_delete_webhook env);
    [destruct (env_bot_close env); discriminate|].
  destruct (env_bot_close env), (env_polling env), (env_api_close env);
    try discriminate.
  intros _. cbn [snd trace webhook pending].
  rewrite polling_entered_app, delivered_app, teardown_app, close_calls_app,
    polling_trace_entered, polling_trace_delivered, polling_trace_teardown,
    polling_trace_close_calls.
  repeat split; try reflexivity.
  - apply app_nil_r.
  - exists (polling_trace env c ++ [EvBotClose; EvApiClose]).
    rewrite <- app_assoc. reflexivity.
Qed.

Lemma main_returns_witness :
  let w := snd (main env_clean (init_world env_clean)) in
  polling_entered (trace w) = true
  /\ delivered (trace w) = env_arrivals env_clean
  /\ teardown (trace w) = [EvBotClose; EvBotClose; EvApiClose]
  /\ close_calls (trace w) = 1
  /\ (exists t : list event,
        trace w = t ++ [EvLog INFO "API client closed successfully"])
  /\ webhook w = None
  /\ pending w = []
  /\ script env_clean = (0%Z, w).
Proof.
  apply (main_returns env_clean). reflexivity.
Defined.

(** X13.  The chain is complete before the bot first calls the platform:
    in every run the six registrations, alternating between the message and
    the callback-query observer, all precede the webhook clear, and none
    follows it. *)
Theorem main_registers_before_clear (env : Env) :
  filter is_registration_or_clear (trace (snd (main env (init_world env))))
  = match startup_failure env with
    | Some _ => []
    | None => registration_events [0; 1; 2] ++ [EvDeleteWebhook true]
    end.
Proof.
  rewrite main_run. unfold main_summary, startup_failure.
  destruct (env_load_config env) as [c|e]; [|reflexivity].
  destruct (storage_failure env c); [reflexivity|].
  destruct (env_api_init env); [reflexivity|].
  destruct (env_bot_init env); [reflexivity|].
  destruct (nonempty (routers_list env)); [|reflexivity].
  assert (Hp : filter is_registration_or_clear (polling_trace env c)
               = registration_events [0; 1; 2] ++ [EvDeleteWebhook true]).
  { unfold polling_trace. rewrite !filter_app.
    rewrite (filter_none _ (send_events env startup_text _))
      by (apply send_events_Forall; reflexivity).
    rewrite (filter_none _ (map EvUpdate _))
      by (apply updates_Forall; reflexivity).
    reflexivity. }
  destruct (env_delete_webhook env);
    [destruct (env_bot_close env); reflexivity|].
  destruct (env_bot_close env), (env_polling env), (env_api_close env);
    cbn [snd trace]; rewrite filter_app, Hp; reflexivity.
Qed.
